(** * sensu_go_check: the check reconciler of library/sensu_go_check.py

    A shallow embedding of [run_module] and a verification of the
    statements made about it: which client calls an invocation issues,
    what it reports, and when it fails.

    Layout: Python values and dictionaries, then the object store and the
    effect monad, then the module object and [run_module] itself, then
    the theorems. *)

From Stdlib Require Import List String Ascii ZArith Bool Lia.
Import ListNotations.
Local Open Scope string_scope.
Local Open Scope Z_scope.
Set Warnings "-register-all".

(** ** Python values *)

Module Py.

(** The values that module parameters and decoded JSON bodies are made
    of.  A dictionary is kept as the list of its items in insertion
    order; Python guarantees that no two keys of a dictionary are equal
    (see [wf]).  Floating point numbers are left out: every numeric
    attribute of a check is an integer. *)
Inductive value : Type :=
| PNone
| PBool (b : bool)
| PInt (n : Z)
| PStr (s : string)
| PList (l : list value)
| PDict (d : list (value * value)).

Definition dict : Type := list (value * value).

(** [bool(v)]: the truth value used by [if v]. *)
Definition truthy (v : value) : bool :=
  match v with
  | PNone => false
  | PBool b => b
  | PInt n => negb (n =? 0)
  | PStr s => negb (String.eqb s "")
  | PList l => match l with [] => false | _ => true end
  | PDict d => match d with [] => false | _ => true end
  end.

(** [isinstance(v, str)] *)
Definition is_str (v : value) : bool :=
  match v with PStr _ => true | _ => false end.

(** [v is not None] *)
Definition is_not_None (v : value) : bool :=
  match v with PNone => false | _ => true end.

(** [a == b].  [bool] is a subclass of [int], so [True == 1]; lists are
    compared element by element; dictionaries have to be of the same
    size and every item of the left one has to be found, with an equal
    value, under an equal key of the right one. *)
Fixpoint eqb (a b : value) {struct a} : bool :=
  match a, b with
  | PNone, PNone => true
  | PBool x, PBool y => Bool.eqb x y
  | PBool x, PInt n => Z.b2z x =? n
  | PInt n, PBool y => n =? Z.b2z y
  | PInt n, PInt m => n =? m
  | PStr s, PStr t => String.eqb s t
  | PList l, PList r =>
      (fix elems (l r : list value) {struct l} : bool :=
         match l, r with
         | [], [] => true
         | x :: l', y :: r' => eqb x y && elems l' r'
         | _, _ => false
         end) l r
  | PDict d, PDict e =>
      Nat.eqb (List.length d) (List.length e) &&
      (fix items (d : list (value * value)) {struct d} : bool :=
         match d with
         | [] => true
         | (k, v) :: d' =>
             (fix find (e : list (value * value)) {struct e} : bool :=
                match e with
                | [] => false
                | (k', v') :: e' => if eqb k k' then eqb v v' else find e'
                end) e && items d'
         end) d
  | _, _ => false
  end.

(** [d.get(k)]: the value stored under the first key equal to [k]. *)
Fixpoint get (k : value) (d : dict) : option value :=
  match d with
  | [] => None
  | (k', v) :: d' => if eqb k k' then Some v else get k d'
  end.

(** [k in d] *)
Definition mem (k : value) (d : dict) : bool :=
  match get k d with Some _ => true | None => false end.

(** [del d[k]]; the caller checks [k in d] first. *)
Fixpoint del (k : value) (d : dict) : dict :=
  match d with
  | [] => []
  | (k', v) :: d' => if eqb k k' then del k d' else (k', v) :: del k d'
  end.

Definition keys (d : dict) : list value := map fst d.
Definition values (d : dict) : list value := map snd d.

(** [a == b] on two dictionaries. *)
Definition dict_eqb (a b : dict) : bool := eqb (PDict a) (PDict b).

(** No two keys of a dictionary are equal, at any depth: the invariant
    of a Python dictionary. *)
Fixpoint wf (v : value) : bool :=
  match v with
  | PList l =>
      (fix all (l : list value) : bool :=
         match l with [] => true | x :: l' => wf x && all l' end) l
  | PDict d =>
      (fix all (d : list (value * value)) : bool :=
         match d with
         | [] => true
         | (k, x) :: d' =>
             wf k && wf x &&
             (fix fresh (e : list (value * value)) : bool :=
                match e with
                | [] => true
                | (k', _) :: e' =>
                    negb (eqb k' k) && negb (eqb k k') && fresh e'
                end) d' &&
             all d'
         end) d
  | _ => true
  end.

(** Induction on values that reaches the elements of lists and the keys
    and values of dictionaries. *)
Section Induction.
Variable P : value -> Prop.
Hypothesis HNone : P PNone.
Hypothesis HBool : forall b, P (PBool b).
Hypothesis HInt : forall n, P (PInt n).
Hypothesis HStr : forall s, P (PStr s).
Hypothesis HList : forall l, Forall P l -> P (PList l).
Hypothesis HDict :
  forall d, Forall (fun kv => P (fst kv) /\ P (snd kv)) d -> P (PDict d).

Fixpoint value_induction (v : value) : P v :=
  match v with
  | PNone => HNone
  | PBool b => HBool b
  | PInt n => HInt n
  | PStr s => HStr s
  | PList l =>
      HList l
        ((fix elems (l : list value) : Forall P l :=
            match l with
            | [] => Forall_nil _
            | x :: l' => Forall_cons x (value_induction x) (elems l')
            end) l)
  | PDict d =>
      HDict d
        ((fix items (d : list (value * value))
            : Forall (fun kv => P (fst kv) /\ P (snd kv)) d :=
            match d with
            | [] => Forall_nil _
            | (k, x) :: d' =>
                Forall_cons (k, x)
                  (conj (value_induction k) (value_induction x)) (items d')
            end) d)
  end.
End Induction.

(** The loops nested in [eqb] and [wf], as functions of their own:
    an item is found with an equal value, two lists agree element by
    element, a key is equal to no key of a dictionary. *)
Definition found_equal (e : dict) (kv : value * value) : bool :=
  match get (fst kv) e with
  | Some v' => eqb (snd kv) v'
  | None => false
  end.

Fixpoint all2 (l r : list value) : bool :=
  match l, r with
  | [], [] => true
  | x :: l', y :: r' => eqb x y && all2 l' r'
  | _, _ => false
  end.

Definition fresh (k : value) (d : dict) : bool :=
  forallb (fun kv => negb (eqb (fst kv) k) && negb (eqb k (fst kv))) d.

End Py.

Import Py.

(** ** The object store and the effects of a run *)

(** A call made on the resource client. The bodies handed to the write
    calls are recorded as they are at the time of the call. *)
Inductive call : Type :=
| Auth
| GetResource
| PostResource (body : dict)
| PutResource (body : dict)
| DeleteResource.

Definition is_write (c : call) : bool :=
  match c with
  | PostResource _ | PutResource _ | DeleteResource => true
  | Auth | GetResource => false
  end.

(** The ways a run ends without reaching [exit_json]. *)
Inductive failure : Type :=
| FailJson (before : string) (arg : value) (after : string)
    (* module.fail_json(msg=(before + '{0}' + after).format(arg)) *)
| ArgumentError (group : list string)
    (* the constructor rejected the task arguments *)
| HelperFailed (c : call) (msg : string)
    (* the client helper ended the run from inside the call [c] *)
| AttributeError.
    (* .keys() on a value that is not a dictionary *)

Inductive outcome (A : Type) : Type :=
| Done (a : A)
| Failed (f : failure).
Arguments Done {A} a.
Arguments Failed {A} f.

(** Dictionaries are objects: a name or a dictionary entry holds a
    reference to one, and [del d[k]] changes the object for every
    holder. *)
Definition loc : Type := nat.

Record world : Type := World {
  heap : list dict;
  calls : list call
}.

Definition init : world := World [] [].

Definition M (A : Type) : Type := world -> outcome A * world.

Definition ret {A} (a : A) : M A := fun w => (Done a, w).

Definition bind {A B} (m : M A) (k : A -> M B) : M B :=
  fun w =>
    match m w with
    | (Done a, w') => k a w'
    | (Failed f, w') => (Failed f, w')
    end.

Definition fail {A} (f : failure) : M A := fun w => (Failed f, w).

Declare Scope run_scope.
Delimit Scope run_scope with run.
Notation "x <- m ;; k" := (bind m (fun x => k))
  (at level 61, m at next level, right associativity) : run_scope.
Notation "m ;; k" := (bind m (fun _ => k))
  (at level 61, right associativity) : run_scope.
Local Open Scope run_scope.

Definition emit (c : call) : M unit :=
  fun w => (Done tt, World (heap w) (calls w ++ [c])).

Definition alloc (d : dict) : M loc :=
  fun w => (Done (List.length (heap w)), World (heap w ++ [d]) (calls w)).

Definition load (l : loc) : M dict :=
  fun w => (Done (nth l (heap w) []), w).

Fixpoint set_nth (l : nat) (d : dict) (h : list dict) : list dict :=
  match h, l with
  | [], _ => []
  | _ :: h', O => d :: h'
  | x :: h', S l' => x :: set_nth l' d h'
  end.

Definition store (l : loc) (d : dict) : M unit :=
  fun w => (Done tt, World (set_nth l d (heap w)) (calls w)).

(** [for x in xs: body(x)] *)
Fixpoint for_each {A} (xs : list A) (body : A -> M unit) : M unit :=
  match xs with
  | [] => ret tt
  | x :: xs' => body x ;; for_each xs' body
  end.

(** ** The module object *)

(** What a helper of the client does when it is called: it returns, or
    it ends the run itself with [fail_json]. *)
Inductive reply (A : Type) : Type :=
| Returns (a : A)
| Fails (msg : string).
Arguments Returns {A} a.
Arguments Fails {A} msg.

(** The entries of [module.params] that [run_module] reads.  [state] and
    [name] are of type str; [metadata] is of type dict and is [None]
    when the task does not set it. *)
Record Params : Type := {
  state : string;
  name : string;
  metadata : option dict
}.

(** The object built by [SensuGo(...)].  The class lives in
    module_utils/sensu_go.py, outside this file; its methods are taken
    as they answer during one run.  [get_resource] and [put_resource]
    return the decoded body and the HTTP status, and
    [create_check_definition] builds the desired definition from the
    parameters.  No method changes the dictionary it is handed. *)
Record SensuGo : Type := {
  params : Params;
  check_mode : bool;
  auth_reply : reply unit;
  get_resource_reply : reply (dict * Z);
  check_definition_built : dict;
  post_resource_reply : dict -> reply unit;
  put_resource_reply : dict -> reply (dict * Z);
  delete_resource_reply : reply unit
}.

Definition answer {A} (c : call) (r : reply A) : M A :=
  emit c ;;
  match r with
  | Returns a => ret a
  | Fails msg => fail (HelperFailed c msg)
  end.

(** [module.auth()] *)
Definition auth (module : SensuGo) : M unit :=
  answer Auth (auth_reply module).

(** [response, info = module.get_resource()]: the body is a new object,
    [info['status']] an integer. *)
Definition get_resource (module : SensuGo) : M (loc * Z) :=
  r <- answer GetResource (get_resource_reply module) ;;
  response <- alloc (fst r) ;;
  ret (response, snd r).

(** [module.create_check_definition()] *)
Definition create_check_definition (module : SensuGo) : M loc :=
  alloc (check_definition_built module).

(** [module.post_resource(check_def)] *)
Definition post_resource (module : SensuGo) (check_def : loc) : M unit :=
  body <- load check_def ;;
  answer (PostResource body) (post_resource_reply module body).

(** [response, info = module.put_resource(check_def)] *)
Definition put_resource (module : SensuGo) (check_def : loc) : M (loc * Z) :=
  body <- load check_def ;;
  r <- answer (PutResource body) (put_resource_reply module body) ;;
  response <- alloc (fst r) ;;
  ret (response, snd r).

(** [reponse, info = module.delete_resource()] *)
Definition delete_resource (module : SensuGo) : M unit :=
  answer DeleteResource (delete_resource_reply module).

(** ** The result *)

(** [result['diff']]: two references. *)
Record Diff : Type := { before : loc; after : loc }.

(** The dictionary [result]; the entries [check_definition] and [diff]
    exist only once they have been assigned. *)
Record Result : Type := {
  changed : bool;
  message : string;
  check_definition : option loc;
  diff : option Diff
}.

Definition set_changed (b : bool) (r : Result) : Result :=
  {| changed := b; message := message r;
     check_definition := check_definition r; diff := diff r |}.

Definition set_message (s : string) (r : Result) : Result :=
  {| changed := changed r; message := s;
     check_definition := check_definition r; diff := diff r |}.

Definition set_check_definition (l : loc) (r : Result) : Result :=
  {| changed := changed r; message := message r;
     check_definition := Some l; diff := diff r |}.

Definition set_diff (d : Diff) (r : Result) : Result :=
  {| changed := changed r; message := message r;
     check_definition := check_definition r; diff := Some d |}.

(** What [module.exit_json( **result)] prints: the result with every
    reference replaced by the object as it is at that moment. *)
Record Output : Type := {
  out_changed : bool;
  out_message : string;
  out_check_definition : option dict;
  out_diff : option (dict * dict)
}.

Definition exit_json (r : Result) : M Output :=
  fun w =>
    let obj l := nth l (heap w) [] in
    (Done {| out_changed := changed r;
             out_message := message r;
             out_check_definition := option_map obj (check_definition r);
             out_diff := option_map (fun d => (obj (before d), obj (after d)))
                                    (diff r) |}, w).

(** ** run_module *)

(** [if not isinstance(x, str): module.fail_json(msg='... {0} is not a
    string'.format(x))] *)
Definition must_be_str (what : string) (x : value) : M unit :=
  if is_str x then ret tt else fail (FailJson what x " is not a string").

(** One of the two blocks of the metadata validation (lines 335-342 for
    [annotations], 343-351 for [labels]); they differ in the field name
    only. *)
Definition validate_field (field : string) (md : dict) : M unit :=
  match get (PStr field) md with
  | Some v =>
      if is_not_None v then
        match v with
        | PDict d =>
            for_each (keys d)
                     (must_be_str ("Metadata " ++ field ++ " key ")) ;;
            for_each (values d)
                     (must_be_str ("Metadata " ++ field ++ " value "))
        | _ => fail AttributeError
        end
      else ret tt
  | None => ret tt
  end.

(** Lines 334-351. *)
Definition validate_metadata (module : SensuGo) : M unit :=
  match metadata (params module) with
  | Some md =>
      if truthy (PDict md) then
        validate_field "annotations" md ;;
        validate_field "labels" md
      else ret tt
  | None => ret tt
  end.

(** Lines 366-370: the keys of [check_def] that hold a truthy value and
    are missing from [response] are deleted from the object
    [check_def]. *)
Definition check_def_with_values (cd : dict) : list value :=
  map fst (filter (fun kv => truthy (snd kv)) cd).

Definition keys_to_remove (cd response : dict) : list value :=
  filter (fun k => negb (mem k response)) (check_def_with_values cd).

Definition remove_keys (check_def response : loc) : M unit :=
  cd <- load check_def ;;
  resp <- load response ;;
  for_each (keys_to_remove cd resp)
           (fun key =>
              cd <- load check_def ;;
              if mem key cd then store check_def (del key cd) else ret tt).

(** Lines 320-323. *)
Definition result0 : Result :=
  {| changed := false; message := "";
     check_definition := None; diff := None |}.

(** Lines 333-396, on the constructed [module].  Lines 276-332 build the
    argument specification and hand it to the constructor. *)
Definition run_module (module : SensuGo) : M Output :=
  let name := name (params module) in
  let result := result0 in
  validate_metadata module ;;
  auth module ;;
  result <-
    (if String.eqb (state (params module)) "present" then
       r <- get_resource module ;;
       let '(response, status) := r in
       check_def <- create_check_definition module ;;
       let result := set_check_definition check_def result in
       if status =? 404 then
         if check_mode module then
           let result :=
             set_message ("Would have created new Sensu Go check: " ++ name)
                         result in
           ret (set_changed true result)
         else
           post_resource module check_def ;;
           let result := set_changed true result in
           ret (set_message ("Created new Sensu Go check: " ++ name) result)
       else if status =? 200 then
         remove_keys check_def response ;;
         resp <- load response ;;
         cd <- load check_def ;;
         if negb (dict_eqb resp cd) then
           let result :=
             set_diff {| before := response; after := check_def |} result in
           if check_mode module then
             let result :=
               set_message ("Would have updated Sensu Go check: " ++ name)
                           result in
             ret (set_changed true result)
           else
             put_resource module check_def ;;
             let result :=
               set_message ("Updated existing Sensu Go check: " ++ name)
                           result in
             ret (set_changed true result)
         else
           ret (set_message
                  ("Sensu Go check already exists and doesn't need to be updated: "
                     ++ name) result)
       else ret result
     else if String.eqb (state (params module)) "absent" then
       r <- get_resource module ;;
       let '(_, status) := r in
       if status =? 404 then
         ret (set_message ("Sensu Go check does not exist: " ++ name) result)
       else if status =? 200 then
         if check_mode module then
           let result :=
             set_message ("Would have deleted Sensu Go check: " ++ name)
                         result in
           ret (set_changed true result)
         else
           delete_resource module ;;
           let result :=
             set_message ("Deleted Sensu Go check: " ++ name) result in
           ret (set_changed true result)
       else ret result
     else ret result) ;;
  exit_json result.

(** A whole run, from the empty store: how it ends and the client calls
    it made, in order. *)
Definition run (module : SensuGo) : outcome Output * list call :=
  let (o, w) := run_module module init in (o, calls w).

Definition writes (cs : list call) : list call := filter is_write cs.

(** Lines 369-370 on the content of the object: [if key in check_def:
    del check_def[key]]. *)
Definition step (d : dict) (key : value) : dict :=
  if mem key d then del key d else d.

(** The object [check_def] after lines 366-370, as a function of the
    definition built and the body fetched: the loop of [remove_keys]
    without the store. *)
Definition projected (cd response : dict) : dict :=
  fold_left step (keys_to_remove cd response) cd.

(** The items of [cd] that lines 366-370 leave alone. *)
Definition kept (response : dict) (kv : value * value) : bool :=
  negb (truthy (snd kv) && negb (mem (fst kv) response)).

(** The projection as the specification words it: the desired keys that
    hold a truthy value and also exist in the remote definition. *)
Definition projection_spec (cd response : dict) : dict :=
  filter (fun kv => truthy (snd kv) && mem (fst kv) response) cd.

(** The same module object run in check mode or not. *)
Definition with_check_mode (b : bool) (module : SensuGo) : SensuGo :=
  {| params := params module;
     check_mode := b;
     auth_reply := auth_reply module;
     get_resource_reply := get_resource_reply module;
     check_definition_built := check_definition_built module;
     post_resource_reply := post_resource_reply module;
     put_resource_reply := put_resource_reply module;
     delete_resource_reply := delete_resource_reply module |}.

(** The same module object against another answer of the backend to the
    GET. *)
Definition with_get_resource (r : reply (dict * Z)) (module : SensuGo)
  : SensuGo :=
  {| params := params module;
     check_mode := check_mode module;
     auth_reply := auth_reply module;
     get_resource_reply := r;
     check_definition_built := check_definition_built module;
     post_resource_reply := post_resource_reply module;
     put_resource_reply := put_resource_reply module;
     delete_resource_reply := delete_resource_reply module |}.

(** ** The constructor call *)

(** Line 318. *)
Definition mutually_exclusive : list (list string) := [["interval"; "cron"]].

(** The options of [group] that the task sets. *)
Definition supplied (args : dict) (group : list string) : list string :=
  filter (fun option => mem (PStr option) args) group.

(** Modelled from the spec: the argument validation done by the
    constructor [SensuGo(...)] of lines 325-332, whose class is not part
    of this file.  Of it, the specification names the validation error
    for "mutually-exclusive options both set", raised before any network
    call; the groups are the ones [run_module] passes. *)
Definition SensuGo_init (groups : list (list string)) (args : dict) : M unit :=
  for_each groups
           (fun group =>
              if (1 <? List.length (supplied args group))%nat
              then fail (ArgumentError group)
              else ret tt).

(** A whole invocation: the task arguments go through the constructor,
    then lines 333-396 run on the object it built. *)
Definition main (args : dict) (module : SensuGo) : outcome Output * list call :=
  let (o, w) := (SensuGo_init mutually_exclusive args ;; run_module module) init
  in (o, calls w).

(** ** The GET of the client helper *)


(** ** Vocabulary of the statements *)

(** The metadata validation lets the run go on. *)
Definition valid (module : SensuGo) : Prop :=
  validate_metadata module init = (Done tt, init).

(** [x] is a key (part "key") or a value (part "value") of the
    dictionary under [field] in the metadata, and is not a string. *)
Definition offends (md : dict) (field part : string) (x : value) : Prop :=
  exists d,
    get (PStr field) md = Some (PDict d) /\ is_str x = false /\
    ((part = "key" /\ In x (keys d)) \/ (part = "value" /\ In x (values d))).

(** The message of the metadata validation for the offender [x]. *)
Definition not_a_string (field part : string) (x : value) : failure :=
  FailJson ("Metadata " ++ field ++ " " ++ part ++ " ") x " is not a string".

(** [annotations] and [labels] are of type dict (lines 289-290): each is
    missing, [None] or a dictionary. *)
Definition typed_field (md : dict) (field : string) : Prop :=
  match get (PStr field) md with
  | None | Some PNone | Some (PDict _) => True
  | Some _ => False
  end.

Definition typed_metadata (md : dict) : Prop :=
  typed_field md "annotations" /\ typed_field md "labels".

(** The task sets both [interval] and [cron]. *)
Definition both_set (args : dict) : bool :=
  mem (PStr "interval") args && mem (PStr "cron") args.

(** ** Inputs used in the examples *)

Definition quiet_client (p : Params) (dry : bool) (built : dict)
           (got : dict * Z) : SensuGo :=
  {| params := p;
     check_mode := dry;
     auth_reply := Returns tt;
     get_resource_reply := Returns got;
     check_definition_built := built;
     post_resource_reply := fun _ => Returns tt;
     put_resource_reply := fun body => Returns (body, 200);
     delete_resource_reply := Returns tt |}.

Definition present_c1 : Params :=
  {| state := "present"; name := "c1"; metadata := None |}.

Definition absent_c1 : Params :=
  {| state := "absent"; name := "c1"; metadata := None |}.

(** The desired definition of the specification's examples. *)
Definition desired_c1 : dict :=
  [ (PStr "name", PStr "c1");
    (PStr "command", PStr "echo ok");
    (PStr "interval", PInt 60);
    (PStr "subscriptions", PList [PStr "all"]) ].

Definition remote_c1 : dict :=
  [ (PStr "interval", PInt 30);
    (PStr "command", PStr "echo ok");
    (PStr "subscriptions", PList [PStr "all"]) ].

(** A task that sets both schedules, and metadata with a label that is
    not a string. *)
Definition cron_and_interval : dict :=
  [ (PStr "name", PStr "c1");
    (PStr "command", PStr "echo ok");
    (PStr "cron", PStr "* * * * *");
    (PStr "interval", PInt 60) ].

Definition interval_only : dict :=
  [ (PStr "name", PStr "c1");
    (PStr "command", PStr "echo ok");
    (PStr "interval", PInt 60) ].

Definition bad_labels : Params :=
  {| state := "present"; name := "c1";
     metadata := Some [ (PStr "annotations", PNone);
                        (PStr "labels", PDict [(PStr "tier", PInt 1)]) ] |}.

(** A desired definition with an explicit zero. *)
Definition desired_ttl0 : dict :=
  [ (PStr "command", PStr "echo ok"); (PStr "ttl", PInt 0) ].

Definition remote_no_ttl : dict :=
  [ (PStr "command", PStr "echo ok") ].

(** A backend that rejects the credentials, one that rejects the
    replace call, a remote definition with a key of its own, and
    metadata whose annotations and labels both hold a non-string. *)
Definition rejected_login (p : Params) (built : dict) : SensuGo :=
  {| params := p;
     check_mode := false;
     auth_reply := Fails "401";
     get_resource_reply := Returns ([], 404);
     check_definition_built := built;
     post_resource_reply := fun _ => Returns tt;
     put_resource_reply := fun body => Returns (body, 200);
     delete_resource_reply := Returns tt |}.

Definition rejected_replace (p : Params) (built : dict) (got : dict * Z)
  : SensuGo :=
  {| params := p;
     check_mode := false;
     auth_reply := Returns tt;
     get_resource_reply := Returns got;
     check_definition_built := built;
     post_resource_reply := fun _ => Returns tt;
     put_resource_reply := fun _ => Fails "500";
     delete_resource_reply := Returns tt |}.

Definition remote_with_history : dict :=
  [ (PStr "command", PStr "echo ok");
    (PStr "interval", PInt 60);
    (PStr "subscriptions", PList [PStr "all"]);
    (PStr "history", PList []) ].

Definition bad_annotations_and_labels : Params :=
  {| state := "present"; name := "c1";
     metadata := Some [ (PStr "annotations",
                         PDict [(PStr "owner", PInt 7); (PInt 1, PStr "x")]);
                        (PStr "labels", PDict [(PStr "tier", PInt 1)]) ] |}.

Definition string_metadata : Params :=
  {| state := "present"; name := "c1";
     metadata := Some [ (PStr "annotations", PDict [(PStr "owner", PStr "ops")]);
                        (PStr "labels", PNone) ] |}.

(** * Properties *)

(** ** Python values *)

Module PyFacts.

(** The nested loops of [eqb] and [wf] in terms of the list functions
    [found_equal], [all2] and [fresh]. *)

Lemma eqb_dict (d e : dict) :
  eqb (PDict d) (PDict e)
  = Nat.eqb (List.length d) (List.length e) && forallb (found_equal e) d.
Proof.
  cbn [eqb]. f_equal.
  induction d as [|[k v] d IH]; [reflexivity|].
  cbn [forallb]. rewrite <- IH. f_equal.
  unfold found_equal. cbn [fst snd]. clear IH.
  induction e as [|[k' v'] e IHe]; [reflexivity|].
  cbn [get]. destruct (eqb k k'); [reflexivity|exact IHe].
Qed.

Lemma eqb_list (l r : list value) : eqb (PList l) (PList r) = all2 l r.
Proof.
  cbn [eqb]. revert r.
  induction l as [|x l IH]; intros [|y r]; cbn [all2]; reflexivity.
Qed.

Lemma wf_list_cons (x : value) (l : list value) :
  wf (PList (x :: l)) = wf x && wf (PList l).
Proof. reflexivity. Qed.

Lemma wf_dict_cons (k x : value) (d : dict) :
  wf (PDict ((k, x) :: d)) = wf k && wf x && fresh k d && wf (PDict d).
Proof.
  cbn [wf]. f_equal. f_equal. unfold fresh.
  induction d as [|[k' x'] d IH]; [reflexivity|].
  cbn [forallb fst]. rewrite <- IH. reflexivity.
Qed.

Lemma fresh_get (k k' : value) (d : dict) :
  fresh k d = true -> In k' (keys d) -> eqb k' k = false /\ eqb k k' = false.
Proof.
  unfold fresh, keys. rewrite forallb_forall. intros H Hin.
  apply in_map_iff in Hin. destruct Hin as [[k0 v0] [E Hin]].
  cbn in E. subst k0. specialize (H _ Hin). cbn [fst] in H.
  apply andb_true_iff in H. destruct H as [H1 H2].
  apply negb_true_iff in H1, H2. split; assumption.
Qed.

(** An item of a well-formed dictionary is the one [get] finds under its
    key. *)
Lemma get_item (d : dict) (k v : value) :
  wf (PDict d) = true -> eqb k k = true -> In (k, v) d -> get k d = Some v.
Proof.
  intros Hwf Hk. induction d as [|[k0 v0] d IH]; intros Hin; [contradiction|].
  rewrite wf_dict_cons in Hwf.
  repeat (apply andb_true_iff in Hwf; destruct Hwf as [Hwf ?]).
  cbn [get]. destruct Hin as [E|Hin].
  - inversion E; subst. rewrite Hk. reflexivity.
  - assert (Hf : eqb k k0 = false).
    { apply (fresh_get k0 k d); [assumption|].
      unfold keys. apply in_map_iff. exists (k, v). split; [reflexivity|assumption]. }
    rewrite Hf. apply IH; assumption.
Qed.

Lemma wf_items (d : dict) :
  wf (PDict d) = true ->
  Forall (fun kv => wf (fst kv) = true /\ wf (snd kv) = true) d.
Proof.
  induction d as [|[k v] d IH]; intros Hwf; constructor.
  - rewrite wf_dict_cons in Hwf.
    repeat (apply andb_true_iff in Hwf; destruct Hwf as [Hwf ?]).
    cbn. split; assumption.
  - apply IH. rewrite wf_dict_cons in Hwf.
    apply andb_true_iff in Hwf. apply Hwf.
Qed.

(** [v == v] holds for every well-formed value. *)
Lemma eqb_refl (v : value) : wf v = true -> eqb v v = true.
Proof.
  induction v as [| b | n | s | l IH | d IH] using value_induction; intros Hwf.
  - reflexivity.
  - destruct b; reflexivity.
  - cbn. apply Z.eqb_refl.
  - cbn. apply String.eqb_refl.
  - rewrite eqb_list. induction l as [|x l IHl]; [reflexivity|].
    rewrite wf_list_cons in Hwf. apply andb_true_iff in Hwf.
    destruct Hwf as [Hx Hl]. inversion IH; subst.
    cbn [all2]. rewrite H1 by assumption. apply IHl; assumption.
  - rewrite eqb_dict, Nat.eqb_refl. cbn [andb].
    apply forallb_forall. intros [k v] Hin.
    pose proof (wf_items d Hwf) as Hitems.
    rewrite Forall_forall in IH, Hitems.
    destruct (IH _ Hin) as [IHk IHv].
    destruct (Hitems _ Hin) as [Hk Hv]. cbn [fst snd] in *.
    unfold found_equal. cbn [fst snd].
    rewrite (get_item d k v Hwf (IHk Hk) Hin).
    apply IHv, Hv.
Qed.

Lemma dict_eqb_refl (d : dict) : wf (PDict d) = true -> dict_eqb d d = true.
Proof. apply eqb_refl. Qed.

End PyFacts.

(** ** The projection of lines 366-370 *)

Module Projection.
Import PyFacts.

Lemma del_filter (k : value) (d : dict) :
  del k d = filter (fun kv => negb (eqb k (fst kv))) d.
Proof.
  induction d as [|[k' v] d IH]; [reflexivity|].
  cbn [del filter fst]. destruct (eqb k k'); cbn [negb]; rewrite IH; reflexivity.
Qed.

Lemma get_None (k : value) (d : dict) :
  get k d = None <-> forall kv, In kv d -> eqb k (fst kv) = false.
Proof.
  induction d as [|[k' v] d IH]; cbn [get].
  - split; [intros _ kv []|reflexivity].
  - destruct (eqb k k') eqn:E; split.
    + discriminate.
    + intros H. specialize (H (k', v) (or_introl eq_refl)). cbn in H. congruence.
    + intros H kv [<-|Hin]; [exact E|]. apply IH; assumption.
    + intros H. apply IH. intros kv Hin. apply H. right. assumption.
Qed.

Lemma step_filter (d : dict) (key : value) :
  step d key = filter (fun kv => negb (eqb key (fst kv))) d.
Proof.
  unfold step, mem. destruct (get key d) eqn:E; [apply del_filter|].
  rewrite get_None in E. symmetry. apply forallb_filter_id.
  apply forallb_forall. intros kv Hin. rewrite (E kv Hin). reflexivity.
Qed.

(** Deleting a list of keys one after the other keeps the items whose
    key is equal to none of them. *)
Lemma fold_step (ks : list value) (d : dict) :
  fold_left step ks d
  = filter (fun kv => negb (existsb (fun key => eqb key (fst kv)) ks)) d.
Proof.
  revert d. induction ks as [|key ks IH]; intros d; cbn [fold_left existsb].
  - symmetry. apply forallb_filter_id. apply forallb_forall. reflexivity.
  - rewrite IH, step_filter. clear IH.
    induction d as [|kv d IHd]; [reflexivity|].
    cbn [filter]. destruct (eqb key (fst kv)); cbn [negb orb filter].
    + exact IHd.
    + destruct (existsb _ ks); cbn [negb]; rewrite IHd; reflexivity.
Qed.

(** [keys_to_remove] is a set in the source, walked in an order Python
    does not fix; the order makes no difference. *)
Lemma fold_step_order (ks ks' : list value) (d : dict) :
  (forall k, In k ks <-> In k ks') -> fold_left step ks d = fold_left step ks' d.
Proof.
  intros H. rewrite !fold_step. apply filter_ext. intros kv. f_equal.
  apply eq_true_iff_eq. rewrite !existsb_exists.
  split; intros [k [Hin E]]; exists k; split; try assumption; apply H; assumption.
Qed.

(** Two items of a well-formed dictionary with equal keys are the same
    item. *)
Lemma wf_unique (d : dict) (k v k' v' : value) :
  wf (PDict d) = true -> In (k, v) d -> In (k', v') d ->
  eqb k k' = true -> (k, v) = (k', v').
Proof.
  induction d as [|[k0 v0] d IH]; intros Hwf H1 H2 E; [contradiction|].
  rewrite wf_dict_cons in Hwf.
  repeat (apply andb_true_iff in Hwf; destruct Hwf as [Hwf ?]).
  assert (Hkeys : forall a b, In (a, b) d -> In a (keys d)).
  { intros a b Hin. unfold keys. apply in_map_iff. exists (a, b). split; [reflexivity|assumption]. }
  destruct H1 as [E1|H1], H2 as [E2|H2].
  - congruence.
  - inversion E1; subst. destruct (fresh_get k k' d); eauto. congruence.
  - inversion E2; subst. destruct (fresh_get k' k d); eauto. congruence.
  - apply IH; assumption.
Qed.

Lemma in_keys_to_remove (cd response : dict) (k : value) :
  In k (keys_to_remove cd response)
  <-> exists v, In (k, v) cd /\ truthy v = true /\ mem k response = false.
Proof.
  unfold keys_to_remove, check_def_with_values.
  rewrite filter_In, in_map_iff. split.
  - intros [[[k0 v] [E Hin]] Hm]. cbn in E. subst k0.
    apply filter_In in Hin. destruct Hin as [Hin Ht]. cbn in Ht.
    exists v. repeat split; try assumption. apply negb_true_iff. assumption.
  - intros [v [Hin [Ht Hm]]]. split.
    + exists (k, v). split; [reflexivity|]. apply filter_In. split; assumption.
    + rewrite Hm. reflexivity.
Qed.

(** On a well-formed definition the projection deletes exactly the items
    whose value is truthy and whose key the remote body lacks. *)
Lemma projected_filter (cd response : dict) :
  wf (PDict cd) = true -> projected cd response = filter (kept response) cd.
Proof.
  intros Hwf. unfold projected. rewrite fold_step. apply filter_ext_in. intros [k v] Hin. unfold kept. cbn [fst snd].
  f_equal. apply eq_true_iff_eq. rewrite existsb_exists, andb_true_iff, negb_true_iff.
  split.
  - intros [key [Hkey E]]. apply in_keys_to_remove in Hkey.
    destruct Hkey as [v0 [Hin0 [Ht Hm]]].
    pose proof (wf_unique cd key v0 k v Hwf Hin0 Hin E) as Eq.
    inversion Eq; subst. split; assumption.
  - intros [Ht Hm]. exists k. split.
    + apply in_keys_to_remove. exists v. repeat split; assumption.
    + apply eqb_refl. pose proof (wf_items cd Hwf) as Hi.
      rewrite Forall_forall in Hi. apply (Hi _ Hin).
Qed.

End Projection.

(** ** The effects of the parts of a run *)

Module Effects.
Import PyFacts Projection.

(** The loop of [remove_keys] changes the object [check_def] and nothing
    else. *)
Lemma remove_loop (ks : list value) (resp cd : dict) (cs : list call) :
  for_each ks
           (fun key =>
              cd <- load 1%nat ;;
              if mem key cd then store 1%nat (del key cd) else ret tt)
           (World [resp; cd] cs)
  = (Done tt, World [resp; fold_left step ks cd] cs).
Proof.
  revert cd. induction ks as [|key ks IH]; intros cd; [reflexivity|].
  cbn [for_each fold_left]. unfold bind at 1. unfold bind at 1.
  cbn [load heap nth]. unfold step at 2.
  destruct (mem key cd); cbn [store ret heap calls set_nth]; apply IH.
Qed.

Lemma remove_keys_run (resp cd : dict) (cs : list call) :
  remove_keys 1%nat 0%nat (World [resp; cd] cs)
  = (Done tt, World [resp; projected cd resp] cs).
Proof.
  unfold remove_keys, bind at 1. cbn [load heap nth].
  unfold bind at 1. cbn [load heap nth]. apply remove_loop.
Qed.

(** The string checks stop at the first value that is not a string. *)
Lemma must_be_str_loop (what : string) (xs : list value) (w : world) :
  for_each xs (must_be_str what) w
  = match find (fun x => negb (is_str x)) xs with
    | Some x => (Failed (FailJson what x " is not a string"), w)
    | None => (Done tt, w)
    end.
Proof.
  induction xs as [|x xs IH]; [reflexivity|].
  cbn [for_each find]. unfold bind, must_be_str.
  destruct (is_str x); cbn [negb]; [exact IH|reflexivity].
Qed.

(** The validation only reads: it leaves the store and the calls as they
    are. *)
Lemma validate_field_world (field : string) (md : dict) (w : world) :
  validate_field field md w = (Done tt, w)
  \/ exists f, validate_field field md w = (Failed f, w).
Proof.
  unfold validate_field.
  destruct (get (PStr field) md) as [v|]; [|left; reflexivity].
  destruct v; cbn [is_not_None]; try (right; eexists; reflexivity);
    try (left; reflexivity).
  unfold bind. rewrite must_be_str_loop.
  destruct (find _ (keys d)); [right; eexists; reflexivity|].
  rewrite must_be_str_loop.
  destruct (find _ (values d)); [right; eexists; reflexivity|left; reflexivity].
Qed.

Lemma validate_metadata_world (module : SensuGo) (w : world) :
  validate_metadata module w = (Done tt, w)
  \/ exists f, validate_metadata module w = (Failed f, w).
Proof.
  unfold validate_metadata.
  destruct (metadata (params module)) as [md|]; [|left; reflexivity].
  destruct (truthy (PDict md)); [|left; reflexivity].
  unfold bind.
  destruct (validate_field_world "annotations" md w) as [H|[f H]]; rewrite H.
  - apply validate_field_world.
  - right. eexists. reflexivity.
Qed.

(** The whole run, path by path: what it reports and the calls it has
    made when it ends. *)
Ltac simp :=
  cbn -[String.eqb Z.eqb append remove_keys dict_eqb projected validate_metadata].

Lemma run_flat (module : SensuGo) :
  run module =
  let name := name (params module) in
  let cd := check_definition_built module in
  let out changed message check_def diff :=
    Done {| out_changed := changed; out_message := message;
            out_check_definition := check_def; out_diff := diff |} in
  match fst (validate_metadata module init) with
  | Failed f => (Failed f, [])
  | Done _ =>
  match auth_reply module with
  | Fails msg => (Failed (HelperFailed Auth msg), [Auth])
  | Returns _ =>
  if String.eqb (state (params module)) "present" then
    match get_resource_reply module with
    | Fails msg => (Failed (HelperFailed GetResource msg), [Auth; GetResource])
    | Returns (resp, status) =>
      if status =? 404 then
        if check_mode module then
          (out true ("Would have created new Sensu Go check: " ++ name)
               (Some cd) None, [Auth; GetResource])
        else
          match post_resource_reply module cd with
          | Fails msg =>
              (Failed (HelperFailed (PostResource cd) msg),
               [Auth; GetResource; PostResource cd])
          | Returns _ =>
              (out true ("Created new Sensu Go check: " ++ name) (Some cd) None,
               [Auth; GetResource; PostResource cd])
          end
      else if status =? 200 then
        let cd' := projected cd resp in
        if negb (dict_eqb resp cd') then
          if check_mode module then
            (out true ("Would have updated Sensu Go check: " ++ name)
                 (Some cd') (Some (resp, cd')), [Auth; GetResource])
          else
            match put_resource_reply module cd' with
            | Fails msg =>
                (Failed (HelperFailed (PutResource cd') msg),
                 [Auth; GetResource; PutResource cd'])
            | Returns _ =>
                (out true ("Updated existing Sensu Go check: " ++ name)
                     (Some cd') (Some (resp, cd')),
                 [Auth; GetResource; PutResource cd'])
            end
        else
          (out false
               ("Sensu Go check already exists and doesn't need to be updated: "
                  ++ name) (Some cd') None, [Auth; GetResource])
      else (out false "" (Some cd) None, [Auth; GetResource])
    end
  else if String.eqb (state (params module)) "absent" then
    match get_resource_reply module with
    | Fails msg => (Failed (HelperFailed GetResource msg), [Auth; GetResource])
    | Returns (_, status) =>
      if status =? 404 then
        (out false ("Sensu Go check does not exist: " ++ name) None None,
         [Auth; GetResource])
      else if status =? 200 then
        if check_mode module then
          (out true ("Would have deleted Sensu Go check: " ++ name) None None,
           [Auth; GetResource])
        else
          match delete_resource_reply module with
          | Fails msg =>
              (Failed (HelperFailed DeleteResource msg),
               [Auth; GetResource; DeleteResource])
          | Returns _ =>
              (out true ("Deleted Sensu Go check: " ++ name) None None,
               [Auth; GetResource; DeleteResource])
          end
      else (out false "" None None, [Auth; GetResource])
    end
  else (out false "" None None, [Auth])
  end end.
Proof.
  cbv zeta. unfold run, run_module. unfold bind at 1.
  destruct (validate_metadata_world module init) as [Hv|[f Hv]]; rewrite Hv;
    [|reflexivity].
  cbn [fst]. unfold bind at 1, auth, answer, bind at 1, emit.
  destruct (auth_reply module) as [[]|msg]; [|reflexivity].
  simp.
  destruct (String.eqb (state (params module)) "present").
  - unfold bind at 1. unfold get_resource, answer, emit. simp.
    destruct (get_resource_reply module) as [[resp status]|msg]; [|reflexivity].
    simp. destruct (status =? 404).
    + destruct (check_mode module); [reflexivity|].
      unfold post_resource, answer, emit, bind. simp.
      destruct (post_resource_reply module _); reflexivity.
    + destruct (status =? 200); [|reflexivity].
      unfold bind at 1. unfold bind at 1. rewrite remove_keys_run.
      simp. destruct (dict_eqb resp _); [reflexivity|].
      simp. destruct (check_mode module); [reflexivity|].
      unfold put_resource, answer, emit, bind. simp.
      destruct (put_resource_reply module _) as [[? ?]|?]; reflexivity.
  - destruct (String.eqb (state (params module)) "absent"); [|reflexivity].
    unfold bind at 1. unfold get_resource, answer, emit. simp.
    destruct (get_resource_reply module) as [[resp status]|msg]; [|reflexivity].
    simp. destruct (status =? 404); [reflexivity|].
    destruct (status =? 200); [|reflexivity].
    destruct (check_mode module); [reflexivity|].
    unfold delete_resource, answer, emit, bind. simp.
    destruct (delete_resource_reply module) as [[]|?]; reflexivity.
Qed.

End Effects.

(** ** The reconciler *)

Import PyFacts Projection Effects.

(** Case analysis on everything a flat run branches on. *)
Ltac branch :=
  repeat match goal with
    | |- context [match ?x with _ => _ end] =>
        lazymatch x with
        | context [match _ with _ => _ end] => fail
        | _ => let E := fresh "E" in destruct x eqn:E
        end
    end.

Ltac tests :=
  repeat match goal with
    | H : (_ =? _) = true |- _ => apply Z.eqb_eq in H; subst
    | H : String.eqb _ _ = true |- _ => apply String.eqb_eq in H
    | H : String.eqb _ _ = false |- _ => apply String.eqb_neq in H
    end.

Ltac same_client :=
  cbn [with_check_mode with_get_resource params check_mode auth_reply
       get_resource_reply check_definition_built post_resource_reply
       put_resource_reply delete_resource_reply].

Lemma validate_with_check_mode (b : bool) (module : SensuGo) :
  validate_metadata (with_check_mode b module) init
  = validate_metadata module init.
Proof. reflexivity. Qed.

Lemma validate_with_get_resource (r : reply (dict * Z)) (module : SensuGo) :
  validate_metadata (with_get_resource r module) init
  = validate_metadata module init.
Proof. reflexivity. Qed.

(** C4. When a run ends with [exit_json], its result holds a diff if and
    only if it reports changed=true, the state asked for is present and
    the GET answered 200.  In particular there is no diff after a 404
    (create), none when the state asked for is absent (delete), and on
    present/200 without a difference there is neither a diff nor
    changed=true. *)
Theorem diff_iff_changed_present_existing
        (module : SensuGo) (o : Output) (cs : list call) :
  run module = (Done o, cs) ->
  (out_diff o <> None <->
   out_changed o = true /\ state (params module) = "present" /\
   exists resp, get_resource_reply module = Returns (resp, 200))
  /\ (forall resp, get_resource_reply module = Returns (resp, 404) ->
                   out_diff o = None)
  /\ (state (params module) = "absent" -> out_diff o = None)
  /\ (forall resp,
         state (params module) = "present" ->
         get_resource_reply module = Returns (resp, 200) ->
         dict_eqb resp (projected (check_definition_built module) resp) = true ->
         out_diff o = None /\ out_changed o = false).
Proof.
  rewrite run_flat. cbv zeta.
  branch; intros H; inversion H; subst; clear H;
    cbn [out_diff out_changed]; tests.
  all: repeat split.
  all: try (intros; congruence).
  all: try (intros; repeat split; eauto; congruence).
  all: try (intros [Hc [Hs [r Hr]]]; congruence).
  all: match goal with
       | Hg : Returns _ = Returns _, He : dict_eqb _ _ = true |- _ =>
           inversion Hg; subst; rewrite He in *; discriminate
       end.
Qed.

Lemma diff_iff_changed_present_existing_witness :
  exists o cs,
    run (quiet_client present_c1 false desired_c1 (remote_c1, 200)) = (Done o, cs)
    /\ out_diff o <> None
    /\ out_changed o = true.
Proof.
  eexists. eexists. split; [reflexivity|].
  pose proof (diff_iff_changed_present_existing
                (quiet_client present_c1 false desired_c1 (remote_c1, 200))
                _ _ eq_refl) as [Hiff _].
  split.
  - apply Hiff. repeat split. exists remote_c1. reflexivity.
  - reflexivity.
Defined.

(** C5. A run in check mode issues no write call, whatever the backend
    answers; and the changed flag it reports is the one the same run
    reports outside check mode: when the latter ends with [exit_json]
    so does the former, with the same flag, and when the former does,
    the latter either does too, with the same flag, or was ended by the
    client inside the write call that check mode leaves out. *)
Theorem dry_run_never_writes (module : SensuGo) :
  let dry := with_check_mode true module in
  let wet := with_check_mode false module in
  writes (snd (run dry)) = [] /\
  (forall o, fst (run wet) = Done o ->
             exists o', fst (run dry) = Done o'
                        /\ out_changed o' = out_changed o) /\
  (forall o', fst (run dry) = Done o' ->
              (exists o, fst (run wet) = Done o
                         /\ out_changed o = out_changed o')
              \/ (exists c msg, is_write c = true
                                /\ fst (run wet) = Failed (HelperFailed c msg))).
Proof.
  cbv zeta. rewrite !run_flat. cbv zeta.
  rewrite !validate_with_check_mode. same_client.
  split; [|split].
  - branch; reflexivity.
  - intros o. branch; cbn [fst]; intros H; inversion H; subst; clear H;
      eexists; (split; reflexivity).
  - intros o. branch; cbn [fst]; intros H; inversion H; subst; clear H;
      try (left; eexists; split; reflexivity);
      right; do 2 eexists; (split; [|reflexivity]); reflexivity.
Qed.

(** The update of the example, in check mode and outside it: the same
    changed flag, and the replace call only outside check mode. *)
Example dry_and_wet_update :
  let module := quiet_client present_c1 false desired_c1 (remote_c1, 200) in
  option_map out_changed
             (match fst (run (with_check_mode true module)) with
              | Done o => Some o | Failed _ => None end) = Some true
  /\ snd (run (with_check_mode true module)) = [Auth; GetResource]
  /\ option_map out_changed
                (match fst (run (with_check_mode false module)) with
                 | Done o => Some o | Failed _ => None end) = Some true
  /\ writes (snd (run (with_check_mode false module)))
     = [PutResource (projected desired_c1 remote_c1)].
Proof. cbv zeta. repeat split. Qed.

(** C7. Asked for absent against a check that does not exist (the GET
    answers 404), a run reports changed=false, issues no write call and
    says that the check does not exist. *)
Theorem absent_missing_is_noop (module : SensuGo) (resp : dict) :
  valid module ->
  auth_reply module = Returns tt ->
  state (params module) = "absent" ->
  get_resource_reply module = Returns (resp, 404) ->
  exists o cs,
    run module = (Done o, cs) /\
    out_changed o = false /\
    writes cs = [] /\
    out_message o = "Sensu Go check does not exist: " ++ name (params module).
Proof.
  intros Hv Ha Hs Hg. rewrite run_flat. cbv zeta.
  unfold valid in Hv. rewrite Hv, Ha, Hs, Hg. cbn.
  do 2 eexists. repeat split.
Qed.

Lemma absent_missing_is_noop_witness :
  exists o cs,
    run (quiet_client absent_c1 false desired_c1 ([], 404)) = (Done o, cs) /\
    out_changed o = false /\
    writes cs = [] /\
    out_message o = "Sensu Go check does not exist: c1".
Proof.
  apply (absent_missing_is_noop
           (quiet_client absent_c1 false desired_c1 ([], 404)) []);
    reflexivity.
Defined.

(** [run_module] itself tests the status against 404 and 200 only
    (lines 357/365 and 386/388): were a [get_resource] to hand back
    another status, neither branch would be taken and the run would go
    on to [exit_json] with the result as it stands.  Surfacing such a
    status is left to the client. *)
Lemma unexpected_status_falls_through (module : SensuGo) (resp : dict)
      (status : Z) :
  valid module ->
  auth_reply module = Returns tt ->
  get_resource_reply module = Returns (resp, status) ->
  status <> 404 -> status <> 200 ->
  exists o,
    run module = (Done o, if String.eqb (state (params module)) "present"
                             || String.eqb (state (params module)) "absent"
                          then [Auth; GetResource] else [Auth])
    /\ out_changed o = false /\ out_message o = "" /\ out_diff o = None.
Proof.
  intros Hv Ha Hg H404 H200. rewrite run_flat. cbv zeta.
  unfold valid in Hv. rewrite Hv, Ha, Hg. cbn [fst].
  apply Z.eqb_neq in H404, H200. rewrite H404, H200.
  destruct (String.eqb (state (params module)) "present");
    [|destruct (String.eqb (state (params module)) "absent")];
    eexists; repeat split.
Qed.



(** C3. For the desired definition of the example (interval 60) against
    the remote definition with interval 30, the run reports
    changed=true and issues the replace call, and the diff it emits
    holds the whole remote definition as before and the whole compared
    definition as after, not the interval alone. *)
Theorem diff_holds_whole_definitions :
  let compared := [ (PStr "command", PStr "echo ok");
                    (PStr "interval", PInt 60);
                    (PStr "subscriptions", PList [PStr "all"]) ] in
  run (quiet_client present_c1 false desired_c1 (remote_c1, 200))
  = (Done {| out_changed := true;
             out_message := "Updated existing Sensu Go check: c1";
             out_check_definition := Some compared;
             out_diff := Some (remote_c1, compared) |},
     [Auth; GetResource; PutResource compared])
  /\ Some (remote_c1, compared)
     <> Some ([(PStr "interval", PInt 30)], [(PStr "interval", PInt 60)]).
Proof. cbv zeta. split; [reflexivity|discriminate]. Qed.

(** With the state absent no result holds a check definition. *)
Lemma absent_reports_no_definition (module : SensuGo) (o : Output)
      (cs : list call) :
  state (params module) = "absent" ->
  run module = (Done o, cs) -> out_check_definition o = None.
Proof.
  intros Hs. rewrite run_flat. cbv zeta. rewrite Hs. cbn [String.eqb].
  change ("absent" =? "present")%string with false.
  change ("absent" =? "absent")%string with true.
  branch; intros H; inversion H; reflexivity.
Qed.

(** C9. With the state absent the result of a successful run holds no
    check definition, whether the check is missing (404) or is deleted
    (200); no run with the state absent reports one. *)
Theorem absent_result_lacks_check_definition :
  run (quiet_client absent_c1 false desired_c1 ([], 404))
  = (Done {| out_changed := false;
             out_message := "Sensu Go check does not exist: c1";
             out_check_definition := None;
             out_diff := None |},
     [Auth; GetResource])
  /\ run (quiet_client absent_c1 false desired_c1 (remote_c1, 200))
     = (Done {| out_changed := true;
                out_message := "Deleted Sensu Go check: c1";
                out_check_definition := None;
                out_diff := None |},
        [Auth; GetResource; DeleteResource])
  /\ (forall module o cs,
         state (params module) = "absent" ->
         run module = (Done o, cs) -> out_check_definition o = None).
Proof.
  split; [reflexivity|]. split; [reflexivity|].
  exact absent_reports_no_definition.
Qed.

(** *** Creating, then finding the check unchanged *)

Lemma mem_item (d : dict) (k v : value) :
  wf (PDict d) = true -> In (k, v) d -> mem k d = true.
Proof.
  intros Hwf Hin. unfold mem.
  pose proof (wf_items d Hwf) as Hi. rewrite Forall_forall in Hi.
  destruct (Hi _ Hin) as [Hk _]. cbn [fst] in Hk.
  rewrite (get_item d k v Hwf (eqb_refl k Hk) Hin). reflexivity.
Qed.

(** Against itself a definition loses no key. *)
Lemma projected_self (d : dict) : wf (PDict d) = true -> projected d d = d.
Proof.
  intros Hwf. rewrite projected_filter by assumption.
  apply forallb_filter_id, forallb_forall. intros [k v] Hin.
  unfold kept. cbn [fst snd]. rewrite (mem_item d k v Hwf Hin).
  rewrite andb_false_r. reflexivity.
Qed.

(** C6. Asked for present against a check that does not exist (the GET
    answers 404), a run outside check mode issues the create call with
    the desired definition D and reports changed=true; the next run
    with the same D, to which the backend now answers 200 with exactly
    D, reports changed=false and issues no write call. *)
Theorem create_then_unchanged (module : SensuGo) (missing : dict) :
  let D := check_definition_built module in
  valid module ->
  auth_reply module = Returns tt ->
  state (params module) = "present" ->
  check_mode module = false ->
  post_resource_reply module D = Returns tt ->
  wf (PDict D) = true ->
  (exists o1,
      run (with_get_resource (Returns (missing, 404)) module)
      = (Done o1, [Auth; GetResource; PostResource D])
      /\ out_changed o1 = true)
  /\ (exists o2,
         run (with_get_resource (Returns (D, 200)) module)
         = (Done o2, [Auth; GetResource])
         /\ out_changed o2 = false).
Proof.
  cbv zeta. intros Hv Ha Hs Hc Hp Hwf. unfold valid in Hv.
  rewrite !run_flat. cbv zeta. rewrite !validate_with_get_resource.
  same_client. rewrite Hv, Ha, Hs, Hc, Hp. cbn [fst].
  change ("present" =? "present")%string with true. cbv iota.
  change (404 =? 404) with true. change (200 =? 404) with false.
  change (200 =? 200) with true. cbv iota.
  rewrite (projected_self _ Hwf), (dict_eqb_refl _ Hwf). cbn [negb].
  split; eexists; split; reflexivity.
Qed.

Lemma create_then_unchanged_witness :
  (exists o1,
      run (quiet_client present_c1 false desired_c1 ([], 404))
      = (Done o1, [Auth; GetResource; PostResource desired_c1])
      /\ out_changed o1 = true)
  /\ (exists o2,
         run (quiet_client present_c1 false desired_c1 (desired_c1, 200))
         = (Done o2, [Auth; GetResource])
         /\ out_changed o2 = false).
Proof.
  apply (create_then_unchanged
           (quiet_client present_c1 false desired_c1 ([], 0)) []);
    reflexivity.
Defined.

(** *** What is compared and what is reported *)

Lemma projected_items (cd resp : dict) (k v : value) :
  wf (PDict cd) = true ->
  (In (k, v) (projected cd resp)
   <-> In (k, v) cd /\ (truthy v = false \/ mem k resp = true)).
Proof.
  intros Hwf. rewrite projected_filter by assumption.
  rewrite filter_In. unfold kept. cbn [fst snd].
  destruct (truthy v), (mem k resp); cbn; intuition congruence.
Qed.

Lemma removed_is_absent (cd resp : dict) (k v : value) :
  wf (PDict cd) = true ->
  In (k, v) cd -> truthy v = true -> mem k resp = false ->
  mem k (projected cd resp) = false.
Proof.
  intros Hwf Hin Ht Hm. unfold mem.
  assert (E : get k (projected cd resp) = None); [|rewrite E; reflexivity].
  apply get_None. intros [k' v'] Hin'. cbn [fst].
  apply (projected_items cd resp k' v' Hwf) in Hin'. destruct Hin' as [Hin' Hk].
  destruct (eqb k k') eqn:E; [|reflexivity].
  pose proof (wf_unique cd k v k' v' Hwf Hin Hin' E) as Eq.
  inversion Eq; subst. destruct Hk; congruence.
Qed.

(** C10. Asked for present against a check that exists (the GET answers
    200), the check definition a run reports is the definition after
    the projection, not the one first built: every key that holds a
    truthy value in the built definition and is missing from the remote
    definition is missing from the reported one as well, and the after
    part of a diff, when there is one, is the reported definition. *)
Theorem reported_definition_is_projected
        (module : SensuGo) (resp : dict) (o : Output) (cs : list call) :
  let built := check_definition_built module in
  state (params module) = "present" ->
  get_resource_reply module = Returns (resp, 200) ->
  wf (PDict built) = true ->
  run module = (Done o, cs) ->
  out_check_definition o = Some (projected built resp)
  /\ (forall k v, In (k, v) built -> truthy v = true -> mem k resp = false ->
                  mem k (projected built resp) = false)
  /\ (forall b a, out_diff o = Some (b, a) ->
                  b = resp /\ out_check_definition o = Some a).
Proof.
  cbv zeta. intros Hs Hg Hwf. rewrite run_flat. cbv zeta. rewrite Hs, Hg.
  change ("present" =? "present")%string with true.
  change (200 =? 404) with false. change (200 =? 200) with true. cbv iota.
  intros H. split; [|split].
  - revert H. branch; intros H; inversion H; reflexivity.
  - intros k v. apply removed_is_absent. assumption.
  - revert H. branch; intros H; inversion H; subst; clear H;
      cbn [out_diff out_check_definition]; intros before' after' Hd;
      inversion Hd; subst; split; reflexivity.
Qed.

Lemma reported_definition_is_projected_witness :
  exists o cs,
    run (quiet_client present_c1 true desired_c1 (remote_c1, 200)) = (Done o, cs)
    /\ out_check_definition o = Some (projected desired_c1 remote_c1)
    /\ mem (PStr "name") desired_c1 = true
    /\ mem (PStr "name") (projected desired_c1 remote_c1) = false
    /\ out_diff o = Some (remote_c1, projected desired_c1 remote_c1).
Proof.
  eexists. eexists. split; [reflexivity|].
  destruct (reported_definition_is_projected
              (quiet_client present_c1 true desired_c1 (remote_c1, 200))
              remote_c1 _ _ eq_refl eq_refl eq_refl eq_refl) as [Hr [Hk _]].
  split; [exact Hr|]. split; [reflexivity|]. split; [|reflexivity].
  apply (Hk (PStr "name") (PStr "c1")); [left; reflexivity| |]; reflexivity.
Defined.

(** C2. Asked for present against a check that exists, a run decides on
    the update by comparing the whole remote definition with the
    desired definition from which the keys that hold a truthy value and
    are missing from the remote definition have been deleted, and only
    those: a desired key with a falsy value stays in the compared
    definition whether or not the remote definition holds it. *)
Theorem comparison_keeps_falsy_keys
        (module : SensuGo) (resp : dict) (o : Output) (cs : list call) :
  let built := check_definition_built module in
  state (params module) = "present" ->
  get_resource_reply module = Returns (resp, 200) ->
  wf (PDict built) = true ->
  run module = (Done o, cs) ->
  out_changed o = negb (dict_eqb resp (projected built resp))
  /\ (forall k v,
         In (k, v) (projected built resp)
         <-> In (k, v) built /\ (truthy v = false \/ mem k resp = true)).
Proof.
  cbv zeta. intros Hs Hg Hwf. rewrite run_flat. cbv zeta. rewrite Hs, Hg.
  change ("present" =? "present")%string with true.
  change (200 =? 404) with false. change (200 =? 200) with true. cbv iota.
  intros H. split.
  - revert H.
    destruct (dict_eqb resp (projected (check_definition_built module) resp));
      cbn [negb]; branch; intros H; inversion H; reflexivity.
  - intros k v. apply projected_items. assumption.
Qed.

Lemma comparison_keeps_falsy_keys_witness :
  exists o cs,
    run (quiet_client present_c1 false desired_ttl0 (remote_no_ttl, 200))
    = (Done o, cs)
    /\ out_changed o = true
    /\ In (PStr "ttl", PInt 0) (projected desired_ttl0 remote_no_ttl).
Proof.
  eexists. eexists. split; [reflexivity|].
  destruct (comparison_keeps_falsy_keys
              (quiet_client present_c1 false desired_ttl0 (remote_no_ttl, 200))
              remote_no_ttl _ _ eq_refl eq_refl eq_refl eq_refl) as [Hc Hi].
  split; [exact Hc|].
  apply Hi. split; [right; left; reflexivity|left; reflexivity].
Defined.

(** C2, as stated, fails for a desired definition with [ttl: 0] against
    a remote definition without [ttl]: the key with the falsy value is
    part of what is compared, so the run reports a change, whereas the
    projection onto the truthy keys that the remote definition holds is
    equal to the remote definition. *)
Lemma falsy_key_is_compared :
  truthy (PInt 0) = false
  /\ mem (PStr "ttl") remote_no_ttl = false
  /\ projected desired_ttl0 remote_no_ttl = desired_ttl0
  /\ projection_spec desired_ttl0 remote_no_ttl = remote_no_ttl
  /\ dict_eqb remote_no_ttl (projection_spec desired_ttl0 remote_no_ttl) = true
  /\ dict_eqb remote_no_ttl (projected desired_ttl0 remote_no_ttl) = false
  /\ run (quiet_client present_c1 true desired_ttl0 (remote_no_ttl, 200))
     = (Done {| out_changed := true;
                out_message := "Would have updated Sensu Go check: c1";
                out_check_definition := Some desired_ttl0;
                out_diff := Some (remote_no_ttl, desired_ttl0) |},
        [Auth; GetResource]).
Proof. repeat split. Qed.

(** *** Validation comes first *)

Lemma main_flat (args : dict) (module : SensuGo) :
  main args module
  = if both_set args
    then (Failed (ArgumentError ["interval"; "cron"]), [])
    else run module.
Proof.
  unfold main, run, both_set, SensuGo_init, mutually_exclusive, supplied.
  cbn [for_each filter].
  destruct (mem (PStr "interval") args), (mem (PStr "cron") args);
    reflexivity.
Qed.

Lemma is_str_find (xs : list value) :
  match find (fun x => negb (is_str x)) xs with
  | Some x => In x xs /\ is_str x = false
  | None => forall x, In x xs -> is_str x = true
  end.
Proof.
  destruct (find _ xs) as [x|] eqn:E.
  - apply find_some in E. destruct E as [Hin Hx].
    apply negb_true_iff in Hx. split; assumption.
  - intros x Hin. pose proof (find_none _ _ E x Hin) as Hx.
    apply negb_false_iff in Hx. exact Hx.
Qed.

(** One block of the validation on a field of type dict: it passes and
    the field holds strings only, or it fails on an offender of that
    field. *)
Lemma validate_field_typed (field : string) (md : dict) (w : world) :
  typed_field md field ->
  (validate_field field md w = (Done tt, w)
   /\ forall part x, ~ offends md field part x)
  \/ (exists part x,
         offends md field part x
         /\ validate_field field md w = (Failed (not_a_string field part x), w)).
Proof.
  unfold typed_field, validate_field, offends.
  destruct (get (PStr field) md) as [v|] eqn:Eg.
  2:{ intros _. left. split; [reflexivity|].
      intros part x [d [Hd _]]. discriminate. }
  destruct v; try contradiction; intros _; cbn [is_not_None].
  { left. split; [reflexivity|]. intros part x [d [Hd _]]. discriminate. }
  unfold bind. rewrite must_be_str_loop.
  pose proof (is_str_find (keys d)) as Hk.
  destruct (find _ (keys d)) as [x|].
  { right. exists "key", x. destruct Hk as [Hin Hx]. split; [|reflexivity].
    exists d. repeat split; auto. }
  rewrite must_be_str_loop.
  pose proof (is_str_find (values d)) as Hv.
  destruct (find _ (values d)) as [x|].
  { right. exists "value", x. destruct Hv as [Hin Hx]. split; [|reflexivity].
    exists d. repeat split; auto. }
  left. split; [reflexivity|].
  intros part x [d' [Hd [Hx [[_ Hin]|[_ Hin]]]]];
    inversion Hd; subst d'; [rewrite (Hk x Hin) in Hx|rewrite (Hv x Hin) in Hx];
    discriminate.
Qed.

Lemma validate_metadata_offender (module : SensuGo) (md : dict)
      (field part : string) (x : value) (w : world) :
  metadata (params module) = Some md ->
  typed_metadata md ->
  In field ["annotations"; "labels"] ->
  offends md field part x ->
  exists field' part' x',
    In field' ["annotations"; "labels"]
    /\ offends md field' part' x'
    /\ validate_metadata module w = (Failed (not_a_string field' part' x'), w).
Proof.
  intros Hm [Ha Hl] Hf Ho. unfold validate_metadata. rewrite Hm.
  assert (Ht : truthy (PDict md) = true).
  { destruct Ho as [d [Hg _]]. destruct md; [discriminate|reflexivity]. }
  rewrite Ht. unfold bind.
  destruct (validate_field_typed "annotations" md w Ha)
    as [[Ea Hna]|[part' [x' [Ho' Ea]]]]; rewrite Ea.
  - destruct (validate_field_typed "labels" md w Hl)
      as [[El Hnl]|[part' [x' [Ho' El]]]].
    + destruct Hf as [<-|[<-|[]]]; exfalso; [eapply Hna|eapply Hnl]; eassumption.
    + exists "labels", part', x'. repeat split; auto. right; left; reflexivity.
  - exists "annotations", part', x'. repeat split; auto. left; reflexivity.
Qed.

(** C8. A task that sets both [cron] and [interval] is rejected with a
    validation error for that pair, and metadata whose annotations or
    labels hold a key or a value that is not a string is rejected with
    a validation error that names the field, the part and the
    offender; either way the invocation fails before any call is made
    on the client: neither auth nor GET. *)
Theorem validation_precedes_network (args : dict) (module : SensuGo) :
  both_set args = true
  \/ (exists md field part x,
         metadata (params module) = Some md /\ typed_metadata md
         /\ In field ["annotations"; "labels"] /\ offends md field part x) ->
  exists f,
    main args module = (Failed f, [])
    /\ if both_set args
       then f = ArgumentError ["interval"; "cron"]
       else exists md field part x,
           metadata (params module) = Some md
           /\ In field ["annotations"; "labels"]
           /\ offends md field part x
           /\ f = not_a_string field part x.
Proof.
  intros H. rewrite main_flat. destruct (both_set args).
  - eexists. split; reflexivity.
  - destruct H as [H|[md [field [part [x [Hm [Ht [Hf Ho]]]]]]]]; [discriminate|].
    destruct (validate_metadata_offender module md field part x init Hm Ht Hf Ho)
      as [field' [part' [x' [Hf' [Ho' E]]]]].
    rewrite run_flat. cbv zeta. rewrite E. cbn [fst].
    eexists. split; [reflexivity|].
    exists md, field', part', x'. repeat split; assumption.
Qed.

Lemma validation_precedes_network_witness :
  (exists f,
      main cron_and_interval (quiet_client present_c1 false desired_c1 ([], 404))
      = (Failed f, [])
      /\ f = ArgumentError ["interval"; "cron"])
  /\ (exists f,
         main interval_only (quiet_client bad_labels false desired_c1 ([], 404))
         = (Failed f, [])
         /\ exists md field part x,
             metadata bad_labels = Some md
             /\ In field ["annotations"; "labels"]
             /\ offends md field part x
             /\ f = not_a_string field part x).
Proof.
  split.
  - apply (validation_precedes_network
             cron_and_interval
             (quiet_client present_c1 false desired_c1 ([], 404))).
    left. reflexivity.
  - apply (validation_precedes_network
             interval_only
             (quiet_client bad_labels false desired_c1 ([], 404))).
    right.
    exists [ (PStr "annotations", PNone);
             (PStr "labels", PDict [(PStr "tier", PInt 1)]) ].
    exists "labels", "value", (PInt 1).
    split; [reflexivity|]. split; [split; exact I|].
    split; [right; left; reflexivity|].
    exists [(PStr "tier", PInt 1)].
    split; [reflexivity|]. split; [reflexivity|].
    right. split; [reflexivity|left; reflexivity].
Defined.

(** The two rejections, evaluated. *)
Example both_schedules_rejected :
  main cron_and_interval (quiet_client present_c1 false desired_c1 ([], 404))
  = (Failed (ArgumentError ["interval"; "cron"]), []).
Proof. reflexivity. Qed.

Example label_value_rejected :
  main interval_only (quiet_client bad_labels false desired_c1 ([], 404))
  = (Failed (FailJson "Metadata labels value " (PInt 1) " is not a string"), []).
Proof. reflexivity. Qed.

(** ** Further properties of run_module *)

(** *** The calls of a run *)

(** X1. The calls of a run are an initial part of: auth, then the GET,
    then one write call.  No run makes a second write call, a write
    call without the GET before it, or a GET without auth before it. *)
Theorem calls_in_order (module : SensuGo) :
  let cs := snd (run module) in
  cs = [] \/ cs = [Auth] \/ cs = [Auth; GetResource]
  \/ exists w, is_write w = true /\ cs = [Auth; GetResource; w].
Proof.
  cbv zeta. rewrite run_flat. cbv zeta.
  branch; cbn [snd]; auto;
    right; right; right; eexists; (split; [|reflexivity]); reflexivity.
Qed.

(** X2. Which write call a run makes is fixed by the state asked for
    and the status of the GET: the create call only for present after a
    404, with the definition as built; the replace call only for
    present after a 200, with the projected definition, and only when
    that differs from the body fetched; the delete call only for absent
    after a 200; and none of them in check mode. *)
Theorem writes_fit_state_and_status (module : SensuGo) :
  let cs := snd (run module) in
  let built := check_definition_built module in
  (forall body,
      In (PostResource body) cs ->
      state (params module) = "present" /\ check_mode module = false
      /\ body = built
      /\ exists resp, get_resource_reply module = Returns (resp, 404))
  /\ (forall body,
         In (PutResource body) cs ->
         state (params module) = "present" /\ check_mode module = false
         /\ exists resp,
             get_resource_reply module = Returns (resp, 200)
             /\ body = projected built resp
             /\ dict_eqb resp body = false)
  /\ (In DeleteResource cs ->
      state (params module) = "absent" /\ check_mode module = false
      /\ exists resp, get_resource_reply module = Returns (resp, 200)).
Proof.
  cbv zeta. rewrite run_flat. cbv zeta.
  split; [|split]; [intros body Hin|intros body Hin|intros Hin]; revert Hin;
    branch; cbn [snd In]; tests; intros Hin;
    repeat match goal with
      | H : _ \/ _ |- _ => destruct H
      | H : False |- _ => destruct H
      | H : _ = _ :> call |- _ => inversion H; clear H; subst
      end;
    repeat split; try reflexivity; eauto.
  all: eexists; repeat split; try reflexivity.
  all: match goal with
       | H : negb _ = true |- _ => apply negb_true_iff in H; exact H
       end.
Qed.

(** X3. Outside check mode a successful run reports changed=true if and
    only if it made a write call. *)
Theorem changed_iff_write (module : SensuGo) (o : Output) (cs : list call) :
  check_mode module = false ->
  run module = (Done o, cs) ->
  (out_changed o = true <-> writes cs <> []).
Proof.
  intros Hc. rewrite run_flat. cbv zeta. rewrite Hc.
  branch; intros H; inversion H; subst; clear H; cbn; split;
    congruence.
Qed.

Lemma changed_iff_write_witness :
  exists o cs,
    run (quiet_client present_c1 false desired_c1 (remote_c1, 200)) = (Done o, cs)
    /\ (out_changed o = true <-> writes cs <> []).
Proof.
  eexists. eexists. split; [reflexivity|].
  apply (changed_iff_write
           (quiet_client present_c1 false desired_c1 (remote_c1, 200)));
    reflexivity.
Defined.

(** *** Failures *)

Lemma validate_field_failure (field : string) (md : dict) (w w' : world)
      (f : failure) :
  validate_field field md w = (Failed f, w') ->
  f = AttributeError \/ exists what x, f = FailJson what x " is not a string".
Proof.
  unfold validate_field.
  destruct (get (PStr field) md) as [v|]; [|discriminate].
  destruct v; cbn [is_not_None]; try discriminate;
    try (intros H; inversion H; left; reflexivity).
  unfold bind. rewrite must_be_str_loop.
  destruct (find _ (keys d)).
  - intros H; inversion H. right. eauto.
  - rewrite must_be_str_loop. destruct (find _ (values d)); [|discriminate].
    intros H; inversion H. right. eauto.
Qed.

Lemma validate_metadata_failure (module : SensuGo) (w w' : world) (f : failure) :
  validate_metadata module w = (Failed f, w') ->
  f = AttributeError \/ exists what x, f = FailJson what x " is not a string".
Proof.
  unfold validate_metadata.
  destruct (metadata (params module)) as [md|]; [|discriminate].
  destruct (truthy (PDict md)); [|discriminate].
  unfold bind.
  destruct (validate_field "annotations" md w) as [[[]|f'] w1] eqn:E.
  - apply validate_field_failure.
  - intros H; inversion H; subst. eapply validate_field_failure. exact E.
Qed.

Ltac ends_with before :=
  do 2 eexists; exists before;
  split; [reflexivity|]; split; [reflexivity|]; first [assumption|reflexivity].

(** X4. A run that fails has either failed in the metadata validation,
    before any call, or was ended by the client helper inside the last
    call it made: [run_module] raises no failure of its own after the
    validation, and makes no call after a failed one. *)
Theorem failure_comes_from_validation_or_last_call
        (module : SensuGo) (f : failure) (cs : list call) :
  run module = (Failed f, cs) ->
  (cs = [] /\ (f = AttributeError
               \/ exists what x, f = FailJson what x " is not a string"))
  \/ (exists c msg before,
         f = HelperFailed c msg /\ cs = (before ++ [c])%list
         /\ match c with
            | Auth => auth_reply module = Fails msg
            | GetResource => get_resource_reply module = Fails msg
            | PostResource body => post_resource_reply module body = Fails msg
            | PutResource body => put_resource_reply module body = Fails msg
            | DeleteResource => delete_resource_reply module = Fails msg
            end).
Proof.
  rewrite run_flat. cbv zeta.
  destruct (validate_metadata module init) as [[[]|f'] w'] eqn:Ev; cbn [fst].
  - branch; intros H; inversion H; subst; clear H; right;
      solve [ ends_with (@nil call) | ends_with [Auth]
            | ends_with [Auth; GetResource] ].
  - intros H; inversion H; subst. left. split; [reflexivity|].
    eapply validate_metadata_failure. exact Ev.
Qed.

Lemma failure_comes_from_validation_or_last_call_witness :
  let module := rejected_replace present_c1 desired_c1 (remote_c1, 200) in
  let sent := projected desired_c1 remote_c1 in
  run module = (Failed (HelperFailed (PutResource sent) "500"),
                [Auth; GetResource; PutResource sent])
  /\ ((snd (run module) = []
       /\ (HelperFailed (PutResource sent) "500" = AttributeError
           \/ exists what x,
              HelperFailed (PutResource sent) "500"
              = FailJson what x " is not a string"))
      \/ (exists c msg before,
             HelperFailed (PutResource sent) "500" = HelperFailed c msg
             /\ snd (run module) = (before ++ [c])%list
             /\ match c with
                | Auth => auth_reply module = Fails msg
                | GetResource => get_resource_reply module = Fails msg
                | PostResource body => post_resource_reply module body = Fails msg
                | PutResource body => put_resource_reply module body = Fails msg
                | DeleteResource => delete_resource_reply module = Fails msg
                end)).
Proof.
  cbv zeta. split; [reflexivity|].
  apply (failure_comes_from_validation_or_last_call
           (rejected_replace present_c1 desired_c1 (remote_c1, 200))).
  reflexivity.
Defined.

(** X5. When the login is rejected, the run fails with the helper's
    failure after the auth call alone: no GET and no write follow. *)
Theorem failed_auth_ends_the_run (module : SensuGo) (msg : string) :
  valid module ->
  auth_reply module = Fails msg ->
  run module = (Failed (HelperFailed Auth msg), [Auth]).
Proof.
  intros Hv Ha. rewrite run_flat. cbv zeta. unfold valid in Hv.
  rewrite Hv, Ha. reflexivity.
Qed.

Lemma failed_auth_ends_the_run_witness :
  run (rejected_login present_c1 desired_c1)
  = (Failed (HelperFailed Auth "401"), [Auth]).
Proof.
  apply (failed_auth_ends_the_run (rejected_login present_c1 desired_c1) "401");
    reflexivity.
Defined.

(** *** Check mode *)

(** X7. When a run outside check mode reports changed=false, the run in
    check mode is the same run: the same result, message included, and
    the same calls. *)
Theorem no_change_same_in_check_mode
        (module : SensuGo) (o : Output) (cs : list call) :
  run (with_check_mode false module) = (Done o, cs) ->
  out_changed o = false ->
  run (with_check_mode true module) = (Done o, cs).
Proof.
  rewrite !run_flat. cbv zeta. rewrite !validate_with_check_mode. same_client.
  branch; intros H; inversion H; subst; clear H; cbn [out_changed];
    intros Hc; try discriminate; reflexivity.
Qed.

Lemma no_change_same_in_check_mode_witness :
  run (quiet_client present_c1 true desired_c1 (desired_c1, 200))
  = (Done {| out_changed := false;
             out_message :=
               "Sensu Go check already exists and doesn't need to be updated: c1";
             out_check_definition := Some desired_c1;
             out_diff := None |},
     [Auth; GetResource]).
Proof.
  apply (no_change_same_in_check_mode
           (quiet_client present_c1 false desired_c1 (desired_c1, 200)));
    reflexivity.
Defined.

(** X8. When the run in check mode and the run outside it both reach
    [exit_json], they report the same changed flag, the same check
    definition and the same diff, and the calls of the latter are those
    of the former followed by its write call, if any. *)
Theorem check_mode_reports_the_same
        (module : SensuGo) (o o' : Output) (cs cs' : list call) :
  run (with_check_mode true module) = (Done o', cs') ->
  run (with_check_mode false module) = (Done o, cs) ->
  out_changed o' = out_changed o
  /\ out_check_definition o' = out_check_definition o
  /\ out_diff o' = out_diff o
  /\ cs = (cs' ++ writes cs)%list.
Proof.
  rewrite !run_flat. cbv zeta. rewrite !validate_with_check_mode. same_client.
  branch; intros H H'; inversion H; inversion H'; subst; clear H H';
    repeat split.
Qed.

Lemma check_mode_reports_the_same_witness :
  exists o o' cs cs',
    run (quiet_client present_c1 true desired_c1 (remote_c1, 200)) = (Done o', cs')
    /\ run (quiet_client present_c1 false desired_c1 (remote_c1, 200)) = (Done o, cs)
    /\ out_changed o' = out_changed o
    /\ out_check_definition o' = out_check_definition o
    /\ out_diff o' = out_diff o
    /\ cs = (cs' ++ writes cs)%list.
Proof.
  do 4 eexists. split; [reflexivity|]. split; [reflexivity|].
  apply (check_mode_reports_the_same
           (quiet_client present_c1 false desired_c1 (remote_c1, 200)));
    reflexivity.
Defined.

(** *** What an update can and cannot do *)

Lemma projected_sub (cd resp : dict) (kv : value * value) :
  In kv (projected cd resp) -> In kv cd.
Proof.
  unfold projected. rewrite fold_step, filter_In. intros [H _]. exact H.
Qed.

Lemma projected_lacks (cd resp : dict) (k : value) :
  mem k cd = false -> mem k (projected cd resp) = false.
Proof.
  unfold mem. destruct (get k cd) eqn:E; [discriminate|]. intros _.
  assert (E' : get k (projected cd resp) = None); [|rewrite E'; reflexivity].
  rewrite get_None in *. intros kv Hin. apply E. eapply projected_sub. exact Hin.
Qed.

Lemma dict_eqb_mem (a b : dict) (k v : value) :
  dict_eqb a b = true -> In (k, v) a -> mem k b = true.
Proof.
  unfold dict_eqb. rewrite eqb_dict, andb_true_iff, forallb_forall.
  intros [_ H] Hin. specialize (H _ Hin). unfold found_equal in H.
  cbn [fst snd] in H. unfold mem. destruct (get k b); [reflexivity|discriminate].
Qed.

(** X9. A key that the remote definition holds and the desired
    definition does not makes every run for present report a change:
    the whole dictionaries are compared, so the run emits a diff (and
    outside check mode replaces the check) however well the desired
    attributes match. *)
Theorem remote_only_key_forces_update
        (module : SensuGo) (resp : dict) (k v : value) (o : Output)
        (cs : list call) :
  let built := check_definition_built module in
  state (params module) = "present" ->
  get_resource_reply module = Returns (resp, 200) ->
  In (k, v) resp ->
  mem k built = false ->
  run module = (Done o, cs) ->
  out_changed o = true
  /\ out_diff o = Some (resp, projected built resp).
Proof.
  cbv zeta. intros Hs Hg Hin Hm. rewrite run_flat. cbv zeta. rewrite Hs, Hg.
  change ("present" =? "present")%string with true.
  change (200 =? 404) with false. change (200 =? 200) with true. cbv iota.
  assert (E : dict_eqb resp (projected (check_definition_built module) resp)
              = false).
  { destruct (dict_eqb resp _) eqn:E; [|reflexivity].
    pose proof (dict_eqb_mem _ _ k v E Hin) as Hk.
    rewrite (projected_lacks _ resp k Hm) in Hk. discriminate. }
  rewrite E. cbn [negb].
  branch; intros H; inversion H; split; reflexivity.
Qed.

Lemma remote_only_key_forces_update_witness :
  exists o cs,
    run (quiet_client present_c1 false desired_c1 (remote_with_history, 200))
    = (Done o, cs)
    /\ out_changed o = true
    /\ out_diff o
       = Some (remote_with_history, projected desired_c1 remote_with_history).
Proof.
  do 2 eexists. split; [reflexivity|].
  eapply (remote_only_key_forces_update
            (quiet_client present_c1 false desired_c1 (remote_with_history, 200))
            remote_with_history (PStr "history") (PList []));
    try reflexivity.
  right. right. right. left. reflexivity.
Defined.

(** X10. The body of a replace call holds items of the desired
    definition only, and no item with a truthy value whose key the
    remote definition lacks: an update never adds a set attribute to a
    check that does not have it yet. *)
Theorem update_adds_no_attribute
        (module : SensuGo) (resp body : dict) (k v : value) :
  let built := check_definition_built module in
  wf (PDict built) = true ->
  get_resource_reply module = Returns (resp, 200) ->
  In (PutResource body) (snd (run module)) ->
  In (k, v) body ->
  In (k, v) built /\ (truthy v = true -> mem k resp = true).
Proof.
  cbv zeta. intros Hwf Hg.
  rewrite run_flat. cbv zeta. rewrite Hg.
  change (200 =? 404) with false. change (200 =? 200) with true. cbv iota.
  intros Hput Hin.
  assert (Hb : body = projected (check_definition_built module) resp).
  { revert Hput. branch; cbn [snd In]; intros Hput;
      repeat match goal with
        | H : _ \/ _ |- _ => destruct H
        | H : False |- _ => destruct H
        | H : _ = _ :> call |- _ => inversion H; clear H; subst
        end; reflexivity. }
  subst body. apply (projected_items _ _ _ _ Hwf) in Hin.
  destruct Hin as [Hin [Hf|Hm]]; split; try assumption; congruence.
Qed.

Lemma update_adds_no_attribute_witness :
  In (PStr "interval", PInt 60) desired_c1
  /\ (truthy (PInt 60) = true -> mem (PStr "interval") remote_c1 = true).
Proof.
  apply (update_adds_no_attribute
           (quiet_client present_c1 false desired_c1 (remote_c1, 200))
           remote_c1 (projected desired_c1 remote_c1));
    try reflexivity.
  - right. right. left. reflexivity.
  - right. left. reflexivity.
Defined.

Lemma in_mem (d : dict) (k v : value) :
  eqb k k = true -> In (k, v) d -> mem k d = true.
Proof.
  intros Hk Hin. unfold mem. destruct (get k d) eqn:E; [reflexivity|].
  rewrite get_None in E. specialize (E _ Hin). cbn in E. congruence.
Qed.

(** Projecting against the outcome of a projection gives that outcome
    again. *)
Lemma projected_again (cd resp : dict) :
  wf (PDict cd) = true ->
  projected cd (projected cd resp) = projected cd resp.
Proof.
  intros Hwf. rewrite (projected_filter cd (projected cd resp) Hwf).
  rewrite (projected_filter cd resp Hwf) at 2.
  apply filter_ext_in. intros [k v] Hin. unfold kept. cbn [fst snd].
  destruct (truthy v) eqn:Ht; [|reflexivity]. cbn [andb]. f_equal. f_equal.
  destruct (mem k resp) eqn:Hm.
  - apply (in_mem _ k v).
    + pose proof (wf_items cd Hwf) as Hi. rewrite Forall_forall in Hi.
      apply eqb_refl. apply (Hi _ Hin).
    + apply (projected_items cd resp k v Hwf). auto.
  - apply (removed_is_absent cd resp k v); assumption.
Qed.

Lemma wf_filter (f : value * value -> bool) (d : dict) :
  wf (PDict d) = true -> wf (PDict (filter f d)) = true.
Proof.
  induction d as [|[k v] d IH]; intros Hwf; [reflexivity|].
  rewrite wf_dict_cons in Hwf.
  repeat (apply andb_true_iff in Hwf; destruct Hwf as [Hwf ?]).
  cbn [filter]. destruct (f (k, v)); [|apply IH; assumption].
  rewrite wf_dict_cons. repeat (apply andb_true_iff; split); auto.
  unfold fresh in *. rewrite forallb_forall in *.
  intros kv Hin. apply filter_In in Hin. destruct Hin as [Hin _]. auto.
Qed.

(** X11. An update settles: when a run for present replaces the check
    and the backend then holds exactly the body it was sent, the next
    run with the same desired definition reports changed=false and
    makes no write call, although the desired definition may hold
    attributes that were left out of that body. *)
Theorem update_then_unchanged (module : SensuGo) (resp : dict)
        (answer : dict * Z) :
  let built := check_definition_built module in
  let sent := projected built resp in
  valid module ->
  auth_reply module = Returns tt ->
  state (params module) = "present" ->
  check_mode module = false ->
  wf (PDict built) = true ->
  dict_eqb resp sent = false ->
  put_resource_reply module sent = Returns answer ->
  (exists o1,
      run (with_get_resource (Returns (resp, 200)) module)
      = (Done o1, [Auth; GetResource; PutResource sent])
      /\ out_changed o1 = true)
  /\ (exists o2,
         run (with_get_resource (Returns (sent, 200)) module)
         = (Done o2, [Auth; GetResource])
         /\ out_changed o2 = false
         /\ out_check_definition o2 = Some sent).
Proof.
  cbv zeta. intros Hv Ha Hs Hc Hwf Hd Hp. unfold valid in Hv.
  rewrite !run_flat. cbv zeta. rewrite !validate_with_get_resource.
  same_client. rewrite Hv, Ha, Hs, Hc. cbn [fst].
  change ("present" =? "present")%string with true. cbv iota.
  change (200 =? 404) with false. change (200 =? 200) with true. cbv iota.
  rewrite (projected_again _ resp Hwf), Hd, Hp. cbn [negb].
  rewrite dict_eqb_refl.
  - cbn [negb]. split; eexists; repeat split.
  - rewrite (projected_filter _ resp Hwf). apply wf_filter. exact Hwf.
Qed.

Lemma update_then_unchanged_witness :
  let sent := projected desired_c1 remote_c1 in
  (exists o1,
      run (quiet_client present_c1 false desired_c1 (remote_c1, 200))
      = (Done o1, [Auth; GetResource; PutResource sent])
      /\ out_changed o1 = true)
  /\ (exists o2,
         run (quiet_client present_c1 false desired_c1 (sent, 200))
         = (Done o2, [Auth; GetResource])
         /\ out_changed o2 = false
         /\ out_check_definition o2 = Some sent).
Proof.
  apply (update_then_unchanged
           (quiet_client present_c1 false desired_c1 ([], 0)) remote_c1
           (projected desired_c1 remote_c1, 200));
    reflexivity.
Defined.

(** X12. [keys_to_remove] is a set, and the loop of lines 368-370 walks
    it in an order Python does not fix: in whatever order the keys are
    visited, the loop leaves the same object [check_def], the same
    other objects and the same calls. *)
Theorem removal_order_is_irrelevant
        (ks : list value) (resp cd : dict) (cs : list call) :
  (forall k, In k ks <-> In k (keys_to_remove cd resp)) ->
  for_each ks
           (fun key =>
              cd <- load 1%nat ;;
              if mem key cd then store 1%nat (del key cd) else ret tt)
           (World [resp; cd] cs)
  = remove_keys 1%nat 0%nat (World [resp; cd] cs).
Proof.
  intros H. rewrite remove_loop, remove_keys_run. unfold projected.
  rewrite (fold_step_order ks (keys_to_remove cd resp) cd H). reflexivity.
Qed.

Lemma removal_order_is_irrelevant_witness :
  for_each (rev (keys_to_remove desired_c1 []))
           (fun key =>
              cd <- load 1%nat ;;
              if mem key cd then store 1%nat (del key cd) else ret tt)
           (World [[]; desired_c1] [Auth; GetResource])
  = remove_keys 1%nat 0%nat (World [[]; desired_c1] [Auth; GetResource]).
Proof.
  apply (removal_order_is_irrelevant
           (rev (keys_to_remove desired_c1 [])) [] desired_c1
           [Auth; GetResource]).
  intros k. symmetry. apply in_rev.
Defined.

(** *** The metadata validation *)

(** X13. For metadata whose annotations and labels are of type dict,
    the validation lets the run go on exactly when no key and no value
    of either is a non-string. *)
Theorem validation_passes_iff_strings (module : SensuGo) (md : dict) :
  metadata (params module) = Some md ->
  typed_metadata md ->
  (valid module
   <-> forall field part x,
      In field ["annotations"; "labels"] -> ~ offends md field part x).
Proof.
  intros Hm Ht. unfold valid. split.
  - intros Hv field part x Hf Ho.
    destruct (validate_metadata_offender module md field part x init Hm Ht Hf Ho)
      as [f' [p' [x' [_ [_ E]]]]].
    rewrite E in Hv. discriminate.
  - intros Hn. unfold validate_metadata. rewrite Hm.
    destruct (truthy (PDict md)); [|reflexivity].
    destruct Ht as [Ha Hl]. unfold bind.
    destruct (validate_field_typed "annotations" md init Ha)
      as [[Ea _]|[part [x [Ho _]]]].
    + rewrite Ea.
      destruct (validate_field_typed "labels" md init Hl)
        as [[El _]|[part [x [Ho _]]]]; [exact El|].
      exfalso. apply (Hn "labels" part x); [right; left; reflexivity|exact Ho].
    + exfalso. apply (Hn "annotations" part x); [left; reflexivity|exact Ho].
Qed.

Lemma validation_passes_iff_strings_witness :
  valid (quiet_client string_metadata false desired_c1 ([], 404))
  <-> forall field part x,
      In field ["annotations"; "labels"] ->
      ~ offends [ (PStr "annotations", PDict [(PStr "owner", PStr "ops")]);
                  (PStr "labels", PNone) ] field part x.
Proof.
  apply (validation_passes_iff_strings
           (quiet_client string_metadata false desired_c1 ([], 404))).
  - reflexivity.
  - split; exact I.
Defined.

(** X14. Annotations are validated before labels, and keys before
    values: when the annotations hold a key that is not a string, the
    run fails on the first such key; when all their keys are strings
    and a value is not, it fails on the first such value; whatever the
    labels hold. *)
Theorem annotations_are_checked_first (module : SensuGo) (md d : dict) :
  metadata (params module) = Some md ->
  get (PStr "annotations") md = Some (PDict d) ->
  match find (fun x => negb (is_str x)) (keys d),
        find (fun x => negb (is_str x)) (values d) with
  | Some x, _ => run module = (Failed (not_a_string "annotations" "key" x), [])
  | None, Some x =>
      run module = (Failed (not_a_string "annotations" "value" x), [])
  | None, None => True
  end.
Proof.
  intros Hm Hg.
  assert (Hv : validate_metadata module init
               = (validate_field "annotations" md ;; validate_field "labels" md)
                   init).
  { unfold validate_metadata. rewrite Hm.
    destruct md; [discriminate|reflexivity]. }
  assert (Hf : validate_field "annotations" md init
               = (for_each (keys d) (must_be_str "Metadata annotations key ") ;;
                  for_each (values d) (must_be_str "Metadata annotations value "))
                   init).
  { unfold validate_field. rewrite Hg. reflexivity. }
  unfold bind in Hv, Hf. rewrite Hf in Hv. rewrite !must_be_str_loop in Hv.
  destruct (find _ (keys d)) as [x|].
  - rewrite run_flat. cbv zeta. rewrite Hv. reflexivity.
  - rewrite must_be_str_loop in Hv. destruct (find _ (values d)) as [x|]; [|exact I].
    rewrite run_flat. cbv zeta. rewrite Hv. reflexivity.
Qed.

Lemma annotations_are_checked_first_witness :
  run (quiet_client bad_annotations_and_labels false desired_c1 ([], 404))
  = (Failed (not_a_string "annotations" "key" (PInt 1)), []).
Proof.
  apply (annotations_are_checked_first
           (quiet_client bad_annotations_and_labels false desired_c1 ([], 404))
           [ (PStr "annotations",
              PDict [(PStr "owner", PInt 7); (PInt 1, PStr "x")]);
             (PStr "labels", PDict [(PStr "tier", PInt 1)]) ]
           [(PStr "owner", PInt 7); (PInt 1, PStr "x")]);
    reflexivity.
Defined.

(** *** The other paths *)

(** X15. Asked for absent against a check that exists (the GET answers
    200), a run outside check mode makes the delete call and reports
    changed=true with the message that the check was deleted; in check
    mode it reports changed=true with the message that it would have
    been, and makes no delete call.  Neither result holds a check
    definition or a diff. *)
Theorem existing_check_is_deleted (module : SensuGo) (resp : dict) :
  valid module ->
  auth_reply module = Returns tt ->
  state (params module) = "absent" ->
  get_resource_reply module = Returns (resp, 200) ->
  delete_resource_reply module = Returns tt ->
  run (with_check_mode false module)
  = (Done {| out_changed := true;
             out_message := "Deleted Sensu Go check: " ++ name (params module);
             out_check_definition := None;
             out_diff := None |},
     [Auth; GetResource; DeleteResource])
  /\ run (with_check_mode true module)
     = (Done {| out_changed := true;
                out_message := "Would have deleted Sensu Go check: "
                                 ++ name (params module);
                out_check_definition := None;
                out_diff := None |},
        [Auth; GetResource]).
Proof.
  intros Hv Ha Hs Hg Hd. unfold valid in Hv.
  rewrite !run_flat. cbv zeta. rewrite !validate_with_check_mode. same_client.
  rewrite Hv, Ha, Hs, Hg, Hd. split; reflexivity.
Qed.

Lemma existing_check_is_deleted_witness :
  run (quiet_client absent_c1 false desired_c1 (remote_c1, 200))
  = (Done {| out_changed := true;
             out_message := "Deleted Sensu Go check: c1";
             out_check_definition := None;
             out_diff := None |},
     [Auth; GetResource; DeleteResource])
  /\ run (quiet_client absent_c1 true desired_c1 (remote_c1, 200))
     = (Done {| out_changed := true;
                out_message := "Would have deleted Sensu Go check: c1";
                out_check_definition := None;
                out_diff := None |},
        [Auth; GetResource]).
Proof.
  apply (existing_check_is_deleted
           (quiet_client absent_c1 false desired_c1 (remote_c1, 200)) remote_c1);
    reflexivity.
Defined.

(** X16. Asked for present, every successful run reports a check
    definition: the projected one when the GET answered 200, and the
    definition as built, with no key removed, for every other status
    (a 404 among them). *)
Theorem present_reports_definition
        (module : SensuGo) (o : Output) (cs : list call) :
  state (params module) = "present" ->
  run module = (Done o, cs) ->
  exists resp status,
    get_resource_reply module = Returns (resp, status)
    /\ out_check_definition o
       = Some (if status =? 200
               then projected (check_definition_built module) resp
               else check_definition_built module).
Proof.
  intros Hs. rewrite run_flat. cbv zeta. rewrite Hs.
  change ("present" =? "present")%string with true. cbv iota.
  branch; intros H; inversion H; subst; clear H; tests;
    do 2 eexists; (split; [reflexivity|]); cbn [out_check_definition];
    try reflexivity;
    repeat match goal with H : (_ =? _) = _ |- _ => rewrite H end;
    reflexivity.
Qed.

Lemma present_reports_definition_witness :
  exists resp status,
    get_resource_reply (quiet_client present_c1 true desired_c1 ([], 404))
    = Returns (resp, status)
    /\ Some desired_c1
       = Some (if status =? 200 then projected desired_c1 resp else desired_c1).
Proof.
  apply (present_reports_definition
           (quiet_client present_c1 true desired_c1 ([], 404)) _ _ eq_refl eq_refl).
Defined.
